(** * grpc-health-probe: the probe of cmd/grpc-health-probe/main.go

    A shallow embedding of the command: its package-level variables, [init]
    (flag parsing and argument validation) and [main] (dial, health-check RPC,
    exit status).  The gRPC client, the clock and the operating system are an
    environment the program calls into; every call the program makes is
    recorded, with its arguments and its result, in a trace. *)

From Stdlib Require Import ZArith List String Bool Lia.
From Stdlib Require Import DecimalString.
Import ListNotations.
Local Open Scope Z_scope.
Local Open Scope string_scope.

(** ** Library types the program uses *)

(** [time.Duration] is a count of nanoseconds; a clock reading is one too. *)
Definition Duration := Z.
Definition Time := Z.

Module time.
Definition Second : Duration := 1000000000.
End time.

(** [codes.Code]: the numeric gRPC status codes the program compares with. *)
Module codes.
Definition Code := Z.
Definition OK : Code := 0.
Definition Canceled : Code := 1.
Definition Unknown : Code := 2.
Definition DeadlineExceeded : Code := 4.
Definition Unimplemented : Code := 12.
Definition Unavailable : Code := 14.
End codes.

(** Go [error] values that reach the program: the two sentinels of package
    context, an error carrying a gRPC status, and any other error. *)
Inductive error : Type :=
| context_DeadlineExceeded
| context_Canceled
| status_Error (c : codes.Code) (msg : string)
| errors_New (msg : string).

Definition Error (e : error) : string :=
  match e with
  | context_DeadlineExceeded => "context deadline exceeded"
  | context_Canceled => "context canceled"
  | status_Error _ msg => msg
  | errors_New msg => msg
  end.

(** [err == context.DeadlineExceeded]: comparison with the sentinel. *)
Definition is_context_DeadlineExceeded (e : error) : bool :=
  match e with
  | context_DeadlineExceeded => true
  | _ => false
  end.

Module status.
Record Status : Type := New { Code : codes.Code; Message : string }.

(** [status.FromError]: the status an error carries and [true], or a
    status of code Unknown and [false] for an error that carries none. *)
Definition FromError (err : error) : Status * bool :=
  match err with
  | status_Error c msg => (New c msg, true)
  | e => (New codes.Unknown (Error e), false)
  end.
End status.

(** [context.Context], as far as the program can tell contexts apart: the
    deadline, if any.  The goroutine of [main] that waits for os.Interrupt
    and calls [cancel] acts only through the blocking calls, which then
    return early with a cancellation error: that is part of what the
    environment below may answer. *)
Module context.
Record Context : Type := mk { deadline : option Time }.

Definition Background : Context := mk None.

Definition WithCancel (parent : Context) : Context := parent.

(** [WithTimeout parent d] at clock reading [now]: the earlier of the
    parent's deadline and [now + d]. *)
Definition WithTimeout (now : Time) (parent : Context) (d : Duration) : Context :=
  match deadline parent with
  | Some D => mk (Some (Z.min D (now + d)))
  | None => mk (Some (now + d))
  end.
End context.

Module grpc.
Inductive DialOption : Type :=
| WithUserAgent (s : string)
| WithBlock
| WithInsecure
| WithTransportCredentials (creds : string).

(** [*grpc.ClientConn]: a handle on an open connection. *)
Record ClientConn : Type := mkConn { conn_target : string }.
End grpc.

Module healthpb.
(** [HealthCheckResponse_ServingStatus] is an int32 with named values. *)
Definition HealthCheckResponse_ServingStatus := Z.
Definition HealthCheckResponse_UNKNOWN : HealthCheckResponse_ServingStatus := 0.
Definition HealthCheckResponse_SERVING : HealthCheckResponse_ServingStatus := 1.
Definition HealthCheckResponse_NOT_SERVING : HealthCheckResponse_ServingStatus := 2.
Definition HealthCheckResponse_SERVICE_UNKNOWN : HealthCheckResponse_ServingStatus := 3.

Definition HealthCheckResponse_ServingStatus_name : list (Z * string) :=
  [ (0, "UNKNOWN"); (1, "SERVING"); (2, "NOT_SERVING"); (3, "SERVICE_UNKNOWN") ].

Fixpoint EnumName (m : list (Z * string)) (v : Z) : string :=
  match m with
  | [] => NilZero.string_of_int (Z.to_int v)
  | (k, name) :: m' => if (k =? v)%Z then name else EnumName m' v
  end.

(** [ServingStatus.String]: the name, or the number in decimal. *)
Definition String (x : HealthCheckResponse_ServingStatus) : string :=
  EnumName HealthCheckResponse_ServingStatus_name x.

Record HealthCheckRequest : Type := mkReq { Service : string }.
Record HealthCheckResponse : Type := mkResp { Status : HealthCheckResponse_ServingStatus }.

(** [resp.GetStatus()]; on a nil response, the zero value. *)
Definition GetStatus (resp : option HealthCheckResponse) : HealthCheckResponse_ServingStatus :=
  match resp with
  | Some r => Status r
  | None => HealthCheckResponse_UNKNOWN
  end.
End healthpb.

(** ** Package-level variables and constants *)

Record Globals : Type := mkGlobals {
  userAgent : string;
  remoteURL : string;
  serviceName : string;
  connTimeoutDur : Duration;
  rpcTimeoutDur : Duration;
  verbose : bool
}.

(** The values of the [var] block when the process starts. *)
Definition initial_globals : Globals :=
  {| userAgent := ""; remoteURL := ""; serviceName := "";
     connTimeoutDur := time.Second; rpcTimeoutDur := time.Second;
     verbose := false |}.

Definition StatusInvalidArguments : Z := 1.
Definition StatusConnectionFailure : Z := 2.
Definition StatusRPCFailure : Z := 3.
Definition StatusUnhealthy : Z := 4.

(** ** What the program does to the outside *)

(** An operand of a [log] call. *)
Inductive Arg : Type :=
| AStr (s : string)
| ADur (d : Duration)
| AErr (e : error)
| AResp (r : option healthpb.HealthCheckResponse).

(** One call to [log.Printf] (format and operands) or [log.Print]. *)
Inductive LogLine : Type :=
| Printf (format : string) (args : list Arg)
| Print (args : list Arg).

Inductive Event : Type :=
| EvLog (l : LogLine)
| EvDial (ctx : context.Context) (target : string) (opts : list grpc.DialOption)
         (res : grpc.ClientConn + error)
| EvCheck (ctx : context.Context) (conn : grpc.ClientConn)
          (req : healthpb.HealthCheckRequest)
          (resp : option healthpb.HealthCheckResponse) (err : option error)
| EvClose (conn : grpc.ClientConn)
| EvCancel (ctx : context.Context).

(** A call registered with [defer]. *)
Inductive Deferred : Type :=
| DCancel (ctx : context.Context)
| DClose (conn : grpc.ClientConn).

(** The environment: what a blocking call made at a clock reading, under a
    context, answers, and how long it blocks. *)
Record Env : Type := mkEnv {
  env_dial : Time -> context.Context -> string -> list grpc.DialOption ->
             (grpc.ClientConn + error) * Duration;
  env_check : Time -> context.Context -> grpc.ClientConn ->
              healthpb.HealthCheckRequest ->
              (option healthpb.HealthCheckResponse * option error) * Duration
}.

(** The command line after [flag.Parse] has read it: for each flag, the
    value given, if the flag was given. *)
Record Args : Type := mkArgs {
  arg_addr : option string;
  arg_service : option string;
  arg_user_agent : option string;
  arg_connect_timeout : option Duration;
  arg_rpc_timeout : option Duration;
  arg_v : option bool
}.

(** ** The process state and its monad *)

Record State : Type := mkState {
  globals : Globals;
  clock : Time;
  trace : list Event;
  deferred : list Deferred
}.

(** A computation returns, or ends the process with [os.Exit]. *)
Inductive Res (A : Type) : Type :=
| Ret (a : A)
| Exit (code : Z).
Arguments Ret {A} a.
Arguments Exit {A} code.

Definition M (A : Type) : Type := State -> Res A * State.

Definition ret {A} (a : A) : M A := fun s => (Ret a, s).

Definition bind {A B} (m : M A) (k : A -> M B) : M B :=
  fun s =>
    match m s with
    | (Ret a, s') => k a s'
    | (Exit c, s') => (Exit c, s')
    end.

Declare Scope probe_scope.
Delimit Scope probe_scope with probe.
Notation "x <- m ;; k" := (bind m (fun x => k))
  (at level 100, m at next level, right associativity) : probe_scope.
Notation "m ;; k" := (bind m (fun _ => k))
  (at level 100, right associativity) : probe_scope.
Local Open Scope probe_scope.

Definition emit (e : Event) : M unit :=
  fun s => (Ret tt, mkState (globals s) (clock s) (trace s ++ [e]) (deferred s)).

Definition get_globals : M Globals := fun s => (Ret (globals s), s).

Definition put_globals (g : Globals) : M unit :=
  fun s => (Ret tt, mkState g (clock s) (trace s) (deferred s)).

Definition when (b : bool) (m : M unit) : M unit := if b then m else ret tt.

(** [os.Exit]: the process ends at once; deferred calls are not run. *)
Definition os_Exit (code : Z) : M unit := fun s => (Exit code, s).

Definition log_Printf (format : string) (args : list Arg) : M unit :=
  emit (EvLog (Printf format args)).

Definition log_Print (args : list Arg) : M unit := emit (EvLog (Print args)).

Definition defer (d : Deferred) : M unit :=
  fun s => (Ret tt, mkState (globals s) (clock s) (trace s) (d :: deferred s)).

Definition time_Now : M Time := fun s => (Ret (clock s), s).

Definition time_Since (t : Time) : M Duration := fun s => (Ret (clock s - t), s).

Definition context_WithTimeout (parent : context.Context) (d : Duration)
  : M context.Context :=
  fun s => (Ret (context.WithTimeout (clock s) parent d), s).

(** ** The program *)

Definition from_flag {A} (given : option A) (default : A) : A :=
  match given with
  | Some v => v
  | None => default
  end.

(** The [flag.StringVar], [flag.DurationVar] and [flag.BoolVar] calls
    followed by [flag.Parse]: each variable receives the value given on the
    command line or else the default it was registered with.  The two
    timeouts are registered with their current value as the default. *)
Definition flag_Parse (args : Args) : M unit :=
  g <- get_globals ;;
  put_globals
    {| remoteURL := from_flag (arg_addr args) "";
       serviceName := from_flag (arg_service args) "";
       userAgent := from_flag (arg_user_agent args) "grpc-health-probe";
       connTimeoutDur := from_flag (arg_connect_timeout args) (connTimeoutDur g);
       rpcTimeoutDur := from_flag (arg_rpc_timeout args) (rpcTimeoutDur g);
       verbose := from_flag (arg_v args) false |}.

Definition argError (s : string) (v : list Arg) : M unit :=
  log_Printf ("error: " ++ s) v ;;
  os_Exit StatusInvalidArguments.

Definition init (args : Args) : M unit :=
  flag_Parse args ;;
  g <- get_globals ;;
  when (remoteURL g =? "")
    (argError "--addr not specified" []) ;;
  when (connTimeoutDur g <=? 0)%Z
    (argError "--connect-timeout must be greater than zero (specified: %v)"
              [ADur (connTimeoutDur g)]) ;;
  when (rpcTimeoutDur g <=? 0)%Z
    (argError "--rpc-timeout must be greater than zero (specified: %v)"
              [ADur (rpcTimeoutDur g)]) ;;
  when (verbose g)
    (log_Printf "parsed options:" [] ;;
     log_Printf "> remoteUrl=%s conn-timeout=%v rpc-timeout=%v"
                [AStr (remoteURL g); ADur (connTimeoutDur g); ADur (rpcTimeoutDur g)]).

(** ** Running the process *)

Definition run_call (d : Deferred) : Event :=
  match d with
  | DCancel ctx => EvCancel ctx
  | DClose conn => EvClose conn
  end.

(** The deferred calls of [main], last registered first. *)
Definition run_deferred (s : State) : State :=
  mkState (globals s) (clock s) (trace s ++ map run_call (deferred s)) [].

(** What is left of a process once it has ended. *)
Record Outcome : Type := mkOutcome {
  exit_code : Z;
  events : list Event;
  end_clock : Time;
  end_globals : Globals
}.

Definition finish (r : Res unit * State) : Outcome :=
  match r with
  | (Ret _, s) =>
      let s' := run_deferred s in
      mkOutcome 0 (trace s') (clock s') (globals s')
  | (Exit c, s) => mkOutcome c (trace s) (clock s) (globals s)
  end.

Section Program.
Variable env : Env.

(** [grpc.DialContext]: blocks, then answers as the environment does. *)
Definition grpc_DialContext (ctx : context.Context) (target : string)
           (opts : list grpc.DialOption) : M (grpc.ClientConn + error) :=
  fun s =>
    let '(res, d) := env_dial env (clock s) ctx target opts in
    (Ret res,
     mkState (globals s) (clock s + d)
             (trace s ++ [EvDial ctx target opts res]) (deferred s)).

(** [healthpb.NewHealthClient(conn).Check]. *)
Definition Check (conn : grpc.ClientConn) (ctx : context.Context)
           (req : healthpb.HealthCheckRequest)
  : M (option healthpb.HealthCheckResponse * option error) :=
  fun s =>
    let '((resp, err), d) := env_check env (clock s) ctx conn req in
    (Ret (resp, err),
     mkState (globals s) (clock s + d)
             (trace s ++ [EvCheck ctx conn req resp err]) (deferred s)).

Definition main : M unit :=
  g <- get_globals ;;
  let ctx := context.WithCancel context.Background in
  let opts := [grpc.WithUserAgent (userAgent g); grpc.WithBlock] in
  let opts := (opts ++ [grpc.WithInsecure])%list in
  when (verbose g) (log_Print [AStr "establishing connection"]) ;;
  connStart <- time_Now ;;
  dialCtx <- context_WithTimeout ctx (connTimeoutDur g) ;;
  defer (DCancel dialCtx) ;;
  r <- grpc_DialContext dialCtx (remoteURL g) opts ;;
  match r with
  | inr err =>
      (if is_context_DeadlineExceeded err then
         log_Printf "timeout: failed to connect service %q within %v"
                    [AStr (remoteURL g); ADur (connTimeoutDur g)]
       else
         log_Printf "error: failed to connect service at %q: %+v"
                    [AStr (remoteURL g); AErr err]) ;;
      os_Exit StatusConnectionFailure
  | inl conn =>
      connDuration <- time_Since connStart ;;
      defer (DClose conn) ;;
      when (verbose g)
        (log_Printf "connection establisted (took %v)" [ADur connDuration]) ;;
      rpcStart <- time_Now ;;
      rpcCtx <- context_WithTimeout ctx (rpcTimeoutDur g) ;;
      defer (DCancel rpcCtx) ;;
      r <- Check conn rpcCtx (healthpb.mkReq (serviceName g)) ;;
      let '(resp, err) := r in
      log_Print [AResp resp] ;;
      match err with
      | Some err =>
          (let '(stat, ok) := status.FromError err in
           if ok && (status.Code stat =? codes.Unimplemented)%Z then
             log_Printf "error: this server does not implement the grpc health protocol (grpc.health.v1.Health)" []
           else
             let '(stat, ok) := status.FromError err in
             if ok && (status.Code stat =? codes.DeadlineExceeded)%Z then
               log_Printf "timeout: health rpc did not complete within %v"
                          [ADur (rpcTimeoutDur g)]
             else
               log_Printf "error: health rpc failed: %+v" [AErr err]) ;;
          os_Exit StatusRPCFailure
      | None =>
          rpcDuration <- time_Since rpcStart ;;
          when (negb (healthpb.GetStatus resp =? healthpb.HealthCheckResponse_SERVING)%Z)
            (log_Printf "service unhealthy (responded with %q)"
                        [AStr (healthpb.String (healthpb.GetStatus resp))] ;;
             os_Exit StatusUnhealthy) ;;
          when (verbose g)
            (log_Printf "time elapsed: connect=%v rpc=%v"
                        [ADur connDuration; ADur rpcDuration]) ;;
          log_Printf "status: %v" [AStr (healthpb.String (healthpb.GetStatus resp))]
      end
  end.

(** A process: the package-level variables hold [g0] and the clock reads
    [t0] when it starts; [init] runs, then [main]; when [main] returns, its
    deferred calls run and the exit status is 0. *)
Definition process (g0 : Globals) (t0 : Time) (args : Args) : Outcome :=
  finish ((init args ;; main) (mkState g0 t0 [] [])).
End Program.

(** ** Configurations *)

(** The configuration of a process: its package-level variables once
    [flag.Parse] has run. *)
Definition config (g0 : Globals) (args : Args) : Globals :=
  {| remoteURL := from_flag (arg_addr args) "";
     serviceName := from_flag (arg_service args) "";
     userAgent := from_flag (arg_user_agent args) "grpc-health-probe";
     connTimeoutDur := from_flag (arg_connect_timeout args) (connTimeoutDur g0);
     rpcTimeoutDur := from_flag (arg_rpc_timeout args) (rpcTimeoutDur g0);
     verbose := from_flag (arg_v args) false |}.

(** A validated configuration: address non-empty, both timeouts positive. *)
Definition valid (g : Globals) : Prop :=
  remoteURL g <> "" /\ 0 < connTimeoutDur g /\ 0 < rpcTimeoutDur g.

(** ** The classifications of the specification, read off an outcome *)

Inductive Classification : Type :=
| Healthy
| Unhealthy
| ProtocolUnimplemented
| RPCTimeout
| RPCFailure
| ConnectionTimeout
| ConnectionFailure.

(** The exit code of each classification (table of section 6). *)
Definition ExitCode (c : Classification) : Z :=
  match c with
  | Healthy => 0
  | Unhealthy => 4
  | ProtocolUnimplemented | RPCTimeout | RPCFailure => 3
  | ConnectionTimeout | ConnectionFailure => 2
  end.

(** The program has no outcome value: it tells the classifications apart by
    the [log.Printf] call that reports each.  This is that call's format. *)
Definition report (c : Classification) : string :=
  match c with
  | Healthy => "status: %v"
  | Unhealthy => "service unhealthy (responded with %q)"
  | ProtocolUnimplemented =>
      "error: this server does not implement the grpc health protocol (grpc.health.v1.Health)"
  | RPCTimeout => "timeout: health rpc did not complete within %v"
  | RPCFailure => "error: health rpc failed: %+v"
  | ConnectionTimeout => "timeout: failed to connect service %q within %v"
  | ConnectionFailure => "error: failed to connect service at %q: %+v"
  end.

Definition is_Printf (format : string) (e : Event) : bool :=
  match e with
  | EvLog (Printf f _) => f =? format
  | _ => false
  end.

Definition logged (format : string) (o : Outcome) : bool :=
  existsb (is_Printf format) (events o).

(** An outcome is classified [c] when the process reported [c] and ended
    with the exit code of [c]. *)
Definition classified (o : Outcome) (c : Classification) : bool :=
  (exit_code o =? ExitCode c)%Z && logged (report c) o.

Definition is_dial (e : Event) : bool :=
  match e with EvDial _ _ _ _ => true | _ => false end.

Definition is_check (e : Event) : bool :=
  match e with EvCheck _ _ _ _ _ => true | _ => false end.

Definition is_close (e : Event) : bool :=
  match e with EvClose _ => true | _ => false end.

(** Stage 1 (connect) and stage 2 (the health-check RPC) were attempted. *)
Definition dialed (o : Outcome) : bool := existsb is_dial (events o).
Definition called (o : Outcome) : bool := existsb is_check (events o).

(** How many times a connection was released. *)
Definition releases (o : Outcome) : nat :=
  List.length (filter is_close (events o)).

(** ** Reading a run off its trace *)

(** The answer the dial got, if the process dialed. *)
Fixpoint dial_result (tr : list Event) : option (grpc.ClientConn + error) :=
  match tr with
  | [] => None
  | EvDial _ _ _ res :: _ => Some res
  | _ :: tr' => dial_result tr'
  end.

(** The answer the health-check RPC got, if the process made the call. *)
Fixpoint rpc_result (tr : list Event)
  : option (option healthpb.HealthCheckResponse * option error) :=
  match tr with
  | [] => None
  | EvCheck _ _ _ resp err :: _ => Some (resp, err)
  | _ :: tr' => rpc_result tr'
  end.

(** An error carries gRPC code [c], as [main] tests it. *)
Definition carries (err : error) (c : codes.Code) : bool :=
  let '(stat, ok) := status.FromError err in
  ok && (status.Code stat =? c)%Z.

(** ** Runs that differ in the verbose flag *)

Definition with_v (args : Args) (v : option bool) : Args :=
  mkArgs (arg_addr args) (arg_service args) (arg_user_agent args)
         (arg_connect_timeout args) (arg_rpc_timeout args) v.

Definition set_verbose (g : Globals) (b : bool) : Globals :=
  mkGlobals (userAgent g) (remoteURL g) (serviceName g)
            (connTimeoutDur g) (rpcTimeoutDur g) b.

Definition is_log (e : Event) : bool :=
  match e with EvLog _ => true | _ => false end.

(** The calls of a run: its trace without the log lines. *)
Definition calls (o : Outcome) : list Event :=
  filter (fun e => negb (is_log e)) (events o).

(** ** The state machine of the specification *)

(** The classification that section 4.1 of the specification assigns to the
    answers of the two stages: a connect timeout or any other connect
    error; else an RPC error that is Unimplemented, a deadline expiry or
    anything else; else a reported status that is SERVING or not. *)
Definition Run_spec (connect : grpc.ClientConn + error)
           (rpc : option healthpb.HealthCheckResponse * option error)
  : Classification :=
  match connect with
  | inr e =>
      if is_context_DeadlineExceeded e then ConnectionTimeout
      else ConnectionFailure
  | inl _ =>
      match rpc with
      | (_, Some e) =>
          if carries e codes.Unimplemented then ProtocolUnimplemented
          else if carries e codes.DeadlineExceeded then RPCTimeout
          else RPCFailure
      | (resp, None) =>
          if (healthpb.GetStatus resp =? healthpb.HealthCheckResponse_SERVING)%Z
          then Healthy else Unhealthy
      end
  end.

(** The answer of stage 2 in a trace; a nil response and a nil error when
    stage 2 was not reached. *)
Definition rpc_answer (tr : list Event)
  : option healthpb.HealthCheckResponse * option error :=
  match rpc_result tr with
  | Some r => r
  | None => (None, None)
  end.

(** ** Deadlines *)

(** The blocking calls honour the deadline of the context they are given:
    a call made at [now] never blocks for a negative time, and under a
    deadline [D] it has returned by [D] (at once if [D] is already past). *)
Definition honours_deadlines (env : Env) : Prop :=
  (forall now ctx target opts,
      0 <= snd (env_dial env now ctx target opts) /\
      forall D, context.deadline ctx = Some D ->
                snd (env_dial env now ctx target opts) <= Z.max 0 (D - now)) /\
  (forall now ctx conn req,
      0 <= snd (env_check env now ctx conn req) /\
      forall D, context.deadline ctx = Some D ->
                snd (env_check env now ctx conn req) <= Z.max 0 (D - now)).

(** ** Counting the calls of a run *)


(** How many times the process dialed, and made the health-check RPC. *)
Definition dials (o : Outcome) : nat := List.length (filter is_dial (events o)).
Definition checks (o : Outcome) : nat := List.length (filter is_check (events o)).


(** The answer and the blocking time of the dial that [main] makes under
    configuration [g] when its clock reads [t0]. *)
Definition dial_call (env : Env) (g : Globals) (t0 : Time)
  : (grpc.ClientConn + error) * Duration :=
  env_dial env t0 (context.mk (Some (t0 + connTimeoutDur g))) (remoteURL g)
           [grpc.WithUserAgent (userAgent g); grpc.WithBlock; grpc.WithInsecure].

(** ** Example targets *)

Definition ok_conn : grpc.ClientConn := grpc.mkConn "localhost:50051".

(** A call that needs [d] would still be blocked when the deadline of
    [ctx] passes. *)
Definition expires (now : Time) (ctx : context.Context) (d : Duration) : bool :=
  match context.deadline ctx with
  | Some D => (D <? now + d)%Z
  | None => false
  end.

(** The time left at [now] until the deadline of [ctx]. *)
Definition time_left (now : Time) (ctx : context.Context) : Duration :=
  match context.deadline ctx with
  | Some D => Z.max 0 (D - now)
  | None => 0
  end.

(** A dial that connects after [d], unless the deadline passes first. *)
Definition dial_in (d : Duration) (now : Time) (ctx : context.Context)
           (target : string) (opts : list grpc.DialOption)
  : (grpc.ClientConn + error) * Duration :=
  if expires now ctx d then (inr context_DeadlineExceeded, time_left now ctx)
  else (inl ok_conn, d).

(** A health check answered with [answer] after [d], unless the deadline
    passes first. *)
Definition check_in (d : Duration)
           (answer : option healthpb.HealthCheckResponse * option error)
           (now : Time) (ctx : context.Context) (conn : grpc.ClientConn)
           (req : healthpb.HealthCheckRequest)
  : (option healthpb.HealthCheckResponse * option error) * Duration :=
  if expires now ctx d then
    ((None, Some (status_Error codes.DeadlineExceeded "context deadline exceeded")),
     time_left now ctx)
  else (answer, d).

(** A target that accepts the connection after 2ms and answers the health
    check with status [st] after 3ms. *)
Definition answering (st : Z) : Env :=
  {| env_dial := dial_in 2000000;
     env_check := check_in 3000000 (Some (healthpb.mkResp st), None) |}.

(** A target that accepts the connection and fails the health check with
    [e]. *)
Definition failing (e : error) : Env :=
  {| env_dial := dial_in 2000000;
     env_check := check_in 3000000 (None, Some e) |}.

(** A target the dial to which fails at once with [e]. *)
Definition refusing (e : error) : Env :=
  {| env_dial := fun _ _ _ _ => (inr e, 0);
     env_check := check_in 0 (None, Some (status_Error codes.Unavailable "no connection")) |}.

(** A target that does not answer: the dial lasts until its deadline. *)
Definition silent : Env :=
  {| env_dial := dial_in (3600 * time.Second);
     env_check := check_in 0 (None, Some (status_Error codes.Unavailable "no connection")) |}.

Definition no_args : Args := mkArgs None None None None None None.

Definition addr_only : Args :=
  mkArgs (Some "localhost:50051") None None None None None.

Definition addr_verbose : Args :=
  mkArgs (Some "localhost:50051") None None None None (Some true).

(** ** Symbolic execution of a run *)

Arguments healthpb.String x : simpl never.

Lemma flag_Parse_config g0 t tr ds args :
  flag_Parse args (mkState g0 t tr ds) = (Ret tt, mkState (config g0 args) t tr ds).
Proof. reflexivity. Qed.

Ltac unfold_ops :=
  unfold argError, grpc_DialContext, Check, log_Printf, log_Print, emit,
    defer, time_Now, time_Since, context_WithTimeout, get_globals,
    put_globals, os_Exit, when, ret.

(** One branching point of the program, in program order. *)
Ltac branch :=
  match goal with
  | |- context [if ?b then _ else _] => is_var b; destruct b
  | |- context [String.eqb ?a ?b] => destruct (String.eqb_spec a b)
  | |- context [(?a <=? ?b)%Z] => destruct (Z.leb_spec a b)
  | |- context [env_dial ?e ?t ?c ?a ?o] =>
      destruct (env_dial e t c a o) as [[?conn | ?err] ?d] eqn:?
  | |- context [env_check ?e ?t ?c ?a ?o] =>
      destruct (env_check e t c a o) as [[?resp [?err | ]] ?d] eqn:?
  | |- context [is_context_DeadlineExceeded ?e] => destruct e
  | |- context [status.FromError ?e] => destruct e
  | |- context [(?a =? ?b)%Z] => destruct (Z.eqb_spec a b)
  end; cbn.

(** Membership of a given event in the trace of one path. *)
Ltac in_trace := cbn; repeat (first [left; reflexivity | right]).

(** Runs [process env g0 t0 args] along every path: one goal per path, with
    the configuration split into its fields. *)
Ltac run_probe g0 args :=
  unfold process, init, main, bind;
  rewrite ?flag_Parse_config;
  generalize (config g0 args);
  intros [ua url svc ct rt v];
  unfold_ops; cbn; repeat branch.

(** ** The scenarios of the specification, run *)

(** A server that answers SERVING: Healthy, exit code 0, and the connection
    is closed between the two deferred cancels. *)
Example serving_run :
  process (answering healthpb.HealthCheckResponse_SERVING) initial_globals 0 addr_only
  = {| exit_code := 0;
       events :=
         [ EvDial (context.mk (Some 1000000000)) "localhost:50051"
                  [grpc.WithUserAgent "grpc-health-probe"; grpc.WithBlock;
                   grpc.WithInsecure]
                  (inl ok_conn);
           EvCheck (context.mk (Some 1002000000)) ok_conn (healthpb.mkReq "")
                   (Some (healthpb.mkResp 1)) None;
           EvLog (Print [AResp (Some (healthpb.mkResp 1))]);
           EvLog (Printf "status: %v" [AStr "SERVING"]);
           EvCancel (context.mk (Some 1002000000));
           EvClose ok_conn;
           EvCancel (context.mk (Some 1000000000)) ];
       end_clock := 5000000;
       end_globals := config initial_globals addr_only |}.
Proof. reflexivity. Qed.

(** A server that answers SERVICE_UNKNOWN: Unhealthy, exit code 4. *)
Example service_unknown_run :
  classified (process (answering healthpb.HealthCheckResponse_SERVICE_UNKNOWN)
                      initial_globals 0 addr_only) Unhealthy = true /\
  In (EvLog (Printf "service unhealthy (responded with %q)" [AStr "SERVICE_UNKNOWN"]))
     (events (process (answering healthpb.HealthCheckResponse_SERVICE_UNKNOWN)
                      initial_globals 0 addr_only)).
Proof. split; [reflexivity | in_trace]. Qed.

(** A closed port: ConnectionFailure, exit code 2. *)
Example closed_port_run :
  classified (process (refusing (errors_New "connection refused"))
                      initial_globals 0 addr_only) ConnectionFailure = true.
Proof. reflexivity. Qed.

(** A target that is not reached within the connect timeout:
    ConnectionTimeout, exit code 2, after the whole timeout. *)
Example unreachable_run :
  classified (process silent initial_globals 0 addr_only) ConnectionTimeout = true /\
  end_clock (process silent initial_globals 0 addr_only) = time.Second.
Proof. split; reflexivity. Qed.

(** A server without the health service: ProtocolUnimplemented, exit 3. *)
Example unimplemented_run :
  classified (process (failing (status_Error codes.Unimplemented "unknown service"))
                      initial_globals 0 addr_only) ProtocolUnimplemented = true.
Proof. reflexivity. Qed.

(** A health check slower than the RPC timeout of 1ms: RPCTimeout, exit 3. *)
Example slow_rpc_run :
  classified (process (answering healthpb.HealthCheckResponse_SERVING) initial_globals 0
                      (mkArgs (Some "localhost:50051") None None None (Some 1000000) None))
             RPCTimeout = true.
Proof. reflexivity. Qed.

(** ** Stage 2 succeeded: Healthy or Unhealthy *)

(** C1: in every run in which the health-check RPC returns without an error,
    the outcome is Healthy (exit code 0) exactly when the reported status is
    SERVING; for any other status it is Unhealthy with exit code 4, and the
    [String()] of the reported status is an operand of the line logged. *)
Theorem rpc_success_healthy_iff_serving
        (env : Env) (g0 : Globals) (t0 : Time) (args : Args)
        (resp : option healthpb.HealthCheckResponse) :
  rpc_result (events (process env g0 t0 args)) = Some (resp, None) ->
  (classified (process env g0 t0 args) Healthy = true <->
   healthpb.GetStatus resp = healthpb.HealthCheckResponse_SERVING) /\
  (exit_code (process env g0 t0 args) = 0 <->
   healthpb.GetStatus resp = healthpb.HealthCheckResponse_SERVING) /\
  (healthpb.GetStatus resp <> healthpb.HealthCheckResponse_SERVING ->
   classified (process env g0 t0 args) Unhealthy = true /\
   exit_code (process env g0 t0 args) = 4 /\
   In (EvLog (Printf "service unhealthy (responded with %q)"
                     [AStr (healthpb.String (healthpb.GetStatus resp))]))
      (events (process env g0 t0 args))).
Proof.
  run_probe g0 args; intros Hrpc; try discriminate Hrpc;
    injection Hrpc as <-.
  all: repeat split; intros; try reflexivity; try discriminate;
    try contradiction; try assumption; in_trace.
Qed.

Lemma rpc_success_healthy_iff_serving_witness :
  rpc_result (events (process (answering 2) initial_globals 0 addr_only))
  = Some (Some (healthpb.mkResp 2), None) /\
  classified (process (answering 2) initial_globals 0 addr_only) Unhealthy = true /\
  exit_code (process (answering 2) initial_globals 0 addr_only) = 4.
Proof.
  split; [reflexivity |].
  pose proof (rpc_success_healthy_iff_serving
                (answering 2) initial_globals 0 addr_only
                (Some (healthpb.mkResp 2)) eq_refl) as [_ [_ H]].
  destruct H as [Hc [He _]]; [discriminate |].
  split; [exact Hc | exact He].
Defined.

(** ** Stage 1 failed: ConnectionTimeout or ConnectionFailure *)

(** C2: in every run in which the dial returns an error, the process exits
    with code 2 and never makes the health-check RPC; the outcome is
    ConnectionTimeout exactly when the error is [context.DeadlineExceeded]
    and ConnectionFailure exactly when it is any other error. *)
Theorem connect_error_exits_2
        (env : Env) (g0 : Globals) (t0 : Time) (args : Args) (e : error) :
  dial_result (events (process env g0 t0 args)) = Some (inr e) ->
  exit_code (process env g0 t0 args) = 2 /\
  called (process env g0 t0 args) = false /\
  (classified (process env g0 t0 args) ConnectionTimeout = true <->
   e = context_DeadlineExceeded) /\
  (classified (process env g0 t0 args) ConnectionFailure = true <->
   e <> context_DeadlineExceeded).
Proof.
  run_probe g0 args; intros Hdial; try discriminate Hdial;
    injection Hdial as <-.
  all: repeat split; intros; try reflexivity; try discriminate;
    try contradiction; congruence.
Qed.

Lemma connect_error_exits_2_witness :
  dial_result (events (process silent initial_globals 0 addr_only))
  = Some (inr context_DeadlineExceeded) /\
  exit_code (process silent initial_globals 0 addr_only) = 2 /\
  called (process silent initial_globals 0 addr_only) = false.
Proof.
  split; [reflexivity |].
  pose proof (connect_error_exits_2 silent initial_globals 0 addr_only
                                    context_DeadlineExceeded eq_refl)
    as [He [Hc _]].
  split; [exact He | exact Hc].
Defined.

(** ** Stage 2 failed: ProtocolUnimplemented, RPCTimeout or RPCFailure *)

(** C3: in every run in which the health-check RPC returns an error, the
    process exits with code 3; the outcome is ProtocolUnimplemented exactly
    when the error carries code Unimplemented, RPCTimeout exactly when it
    carries code DeadlineExceeded, and RPCFailure exactly when it carries
    neither. *)
Theorem rpc_error_exits_3
        (env : Env) (g0 : Globals) (t0 : Time) (args : Args)
        (resp : option healthpb.HealthCheckResponse) (e : error) :
  rpc_result (events (process env g0 t0 args)) = Some (resp, Some e) ->
  exit_code (process env g0 t0 args) = 3 /\
  (classified (process env g0 t0 args) ProtocolUnimplemented = true <->
   carries e codes.Unimplemented = true) /\
  (classified (process env g0 t0 args) RPCTimeout = true <->
   carries e codes.DeadlineExceeded = true) /\
  (classified (process env g0 t0 args) RPCFailure = true <->
   carries e codes.Unimplemented = false /\
   carries e codes.DeadlineExceeded = false).
Proof.
  run_probe g0 args; intros Hrpc; try discriminate Hrpc;
    injection Hrpc as <- <-.
  all: unfold carries; cbn; subst;
    repeat match goal with
           | |- context [(?a =? ?b)%Z] => destruct (Z.eqb_spec a b)
           end;
    repeat split; intros; try reflexivity; try discriminate;
    try contradiction; try congruence;
    repeat match goal with H : _ /\ _ |- _ => destruct H end;
    try discriminate.
Qed.

Lemma rpc_error_exits_3_witness :
  rpc_result
    (events (process (failing (status_Error codes.Unimplemented "unknown service"))
                     initial_globals 0 addr_only))
  = Some (None, Some (status_Error codes.Unimplemented "unknown service")) /\
  exit_code (process (failing (status_Error codes.Unimplemented "unknown service"))
                     initial_globals 0 addr_only) = 3.
Proof.
  split; [reflexivity |].
  exact (proj1 (rpc_error_exits_3
                  (failing (status_Error codes.Unimplemented "unknown service"))
                  initial_globals 0 addr_only None
                  (status_Error codes.Unimplemented "unknown service") eq_refl)).
Defined.

(** ** Invalid arguments *)

(** C5: when the address is empty or a timeout is not positive, [init] ends
    the process with exit code 1 before [main] runs: the process neither
    dials nor makes the health-check RPC, and all it does is log one line
    that starts with "error: ". *)
Theorem invalid_arguments_exit_1
        (env : Env) (g0 : Globals) (t0 : Time) (args : Args) :
  remoteURL (config g0 args) = "" \/
  connTimeoutDur (config g0 args) <= 0 \/
  rpcTimeoutDur (config g0 args) <= 0 ->
  exit_code (process env g0 t0 args) = StatusInvalidArguments /\
  dialed (process env g0 t0 args) = false /\
  called (process env g0 t0 args) = false /\
  exists s v, events (process env g0 t0 args) = [EvLog (Printf ("error: " ++ s) v)].
Proof.
  run_probe g0 args; intros [Hurl | [Hct | Hrt]];
    try contradiction; try lia.
  all: repeat split; eexists _, _; reflexivity.
Qed.

Lemma invalid_arguments_exit_1_witness :
  remoteURL (config initial_globals no_args) = "" /\
  exit_code (process (answering 1) initial_globals 0 no_args) = 1 /\
  dialed (process (answering 1) initial_globals 0 no_args) = false /\
  called (process (answering 1) initial_globals 0 no_args) = false.
Proof.
  split; [reflexivity |].
  pose proof (invalid_arguments_exit_1 (answering 1) initial_globals 0 no_args
                (or_introl eq_refl)) as [He [Hd [Hc _]]].
  repeat split; assumption.
Defined.

(** ** One classification per run *)

Ltac only_class c :=
  exists c; split;
  [ reflexivity
  | let c' := fresh "c" in
    intros c'; destruct c'; cbn; intros; try discriminate; reflexivity ].

(** C6: a run with a validated configuration is classified as exactly one
    of the seven terminal classifications. *)
Theorem exactly_one_classification
        (env : Env) (g0 : Globals) (t0 : Time) (args : Args) :
  valid (config g0 args) ->
  exists c, classified (process env g0 t0 args) c = true /\
            forall c', classified (process env g0 t0 args) c' = true -> c' = c.
Proof.
  unfold valid.
  run_probe g0 args; intros [Hurl [Hct Hrt]]; try contradiction; try lia.
  all: first [ only_class Healthy | only_class Unhealthy
             | only_class ProtocolUnimplemented | only_class RPCTimeout
             | only_class RPCFailure | only_class ConnectionTimeout
             | only_class ConnectionFailure ].
Qed.

Lemma exactly_one_classification_witness :
  valid (config initial_globals addr_only) /\
  exists c, classified (process (answering 1) initial_globals 0 addr_only) c = true /\
            forall c', classified (process (answering 1) initial_globals 0 addr_only) c' = true ->
                       c' = c.
Proof.
  assert (Hv : valid (config initial_globals addr_only)).
  { unfold valid; cbn. split; [discriminate | split; reflexivity]. }
  split; [exact Hv |].
  exact (exactly_one_classification (answering 1) initial_globals 0 addr_only Hv).
Defined.

(** ** Release of the connection *)

(** Once the dial has returned a connection, it is released once when
    [main] returns (exit code 0) and never when the process ends in
    [os.Exit]: the deferred [conn.Close()] is not run then. *)
Lemma released_iff_main_returns
      (env : Env) (g0 : Globals) (t0 : Time) (args : Args)
      (conn : grpc.ClientConn) :
  dial_result (events (process env g0 t0 args)) = Some (inl conn) ->
  releases (process env g0 t0 args)
  = if (exit_code (process env g0 t0 args) =? 0)%Z then 1%nat else 0%nat.
Proof.
  run_probe g0 args; intros Hdial; try discriminate Hdial; reflexivity.
Qed.

(** C4 (not met by the code): the connection opened in stage 1 is to be
    released exactly once on every exit path out of stage 2.  Against a
    target that accepts the connection and answers NOT_SERVING the run is
    Unhealthy, exits with code 4, and the connection is never released. *)
Theorem unhealthy_exit_skips_close :
  dial_result
    (events (process (answering healthpb.HealthCheckResponse_NOT_SERVING)
                     initial_globals 0 addr_only))
  = Some (inl ok_conn) /\
  classified (process (answering healthpb.HealthCheckResponse_NOT_SERVING)
                      initial_globals 0 addr_only) Unhealthy = true /\
  exit_code (process (answering healthpb.HealthCheckResponse_NOT_SERVING)
                     initial_globals 0 addr_only) = 4 /\
  releases (process (answering healthpb.HealthCheckResponse_NOT_SERVING)
                    initial_globals 0 addr_only) = 0%nat.
Proof. repeat split. Qed.

(** The same on the other path that leaves stage 2 through [os.Exit]: a
    failed health-check RPC. *)
Lemma rpc_failure_exit_skips_close :
  exit_code (process (failing (status_Error codes.Unavailable "transport is closing"))
                     initial_globals 0 addr_only) = 3 /\
  releases (process (failing (status_Error codes.Unavailable "transport is closing"))
                    initial_globals 0 addr_only) = 0%nat.
Proof. repeat split. Qed.

(** ** The dial options *)

Ltac split_in H :=
  cbn in H;
  repeat match type of H with
         | _ \/ _ => destruct H as [H | H]
         end;
  try contradiction; try discriminate H.

(** C10: a run with a validated configuration dials the configured address
    with the options user agent, blocking and insecure, in this order; and
    every dial of a run has the blocking and the insecure option and no
    transport credentials, whatever the arguments. *)
Theorem dial_insecure_and_blocking
        (env : Env) (g0 : Globals) (t0 : Time) (args : Args) :
  valid (config g0 args) ->
  (exists ctx res,
      In (EvDial ctx (remoteURL (config g0 args))
                 [grpc.WithUserAgent (userAgent (config g0 args));
                  grpc.WithBlock; grpc.WithInsecure] res)
         (events (process env g0 t0 args))) /\
  (forall ctx target opts res,
      In (EvDial ctx target opts res) (events (process env g0 t0 args)) ->
      In grpc.WithBlock opts /\ In grpc.WithInsecure opts /\
      forall creds, ~ In (grpc.WithTransportCredentials creds) opts).
Proof.
  unfold valid.
  run_probe g0 args; intros [Hurl [Hct Hrt]]; try contradiction; try lia.
  all: split;
    [ eexists _, _; in_trace
    | intros ctx target opts res Hin; split_in Hin;
      injection Hin as _ _ <- _;
      repeat split; try in_trace;
      intros creds Hc; split_in Hc ].
Qed.

Lemma dial_insecure_and_blocking_witness :
  valid (config initial_globals addr_only) /\
  exists ctx res,
    In (EvDial ctx "localhost:50051"
               [grpc.WithUserAgent "grpc-health-probe"; grpc.WithBlock;
                grpc.WithInsecure] res)
       (events (process (answering 1) initial_globals 0 addr_only)).
Proof.
  assert (Hv : valid (config initial_globals addr_only)).
  { unfold valid; cbn. split; [discriminate | split; reflexivity]. }
  split; [exact Hv |].
  exact (proj1 (dial_insecure_and_blocking (answering 1) initial_globals 0
                                           addr_only Hv)).
Defined.

(** ** Time spent blocked *)

Lemma dial_in_honours d now ctx target opts :
  0 <= d ->
  0 <= snd (dial_in d now ctx target opts) /\
  forall D, context.deadline ctx = Some D ->
            snd (dial_in d now ctx target opts) <= Z.max 0 (D - now).
Proof.
  intros Hd. unfold dial_in, expires, time_left.
  destruct (context.deadline ctx) as [D0 |]; cbn.
  - destruct (Z.ltb_spec D0 (now + d)); cbn;
      (split; [lia | intros D [= <-]; lia]).
  - split; [exact Hd | discriminate].
Qed.

Lemma check_in_honours d answer now ctx conn req :
  0 <= d ->
  0 <= snd (check_in d answer now ctx conn req) /\
  forall D, context.deadline ctx = Some D ->
            snd (check_in d answer now ctx conn req) <= Z.max 0 (D - now).
Proof.
  intros Hd. unfold check_in, expires, time_left.
  destruct (context.deadline ctx) as [D0 |]; cbn.
  - destruct (Z.ltb_spec D0 (now + d)); cbn;
      (split; [lia | intros D [= <-]; lia]).
  - split; [exact Hd | discriminate].
Qed.

Lemma answering_honours st : honours_deadlines (answering st).
Proof.
  split; intros; cbn; [apply dial_in_honours | apply check_in_honours]; lia.
Qed.

(** What [honours_deadlines] says of the calls made on one path. *)
Ltac use_deadlines Hh :=
  repeat match goal with
         | E : env_dial ?e ?t ?c ?a ?o = _ |- _ =>
             let X := fresh "Hdial" in
             pose proof (proj1 Hh t c a o) as X;
             rewrite E in X; cbn in X;
             destruct X as [? X]; specialize (X _ eq_refl);
             clear E
         | E : env_check ?e ?t ?c ?a ?o = _ |- _ =>
             let X := fresh "Hcheck" in
             pose proof (proj2 Hh t c a o) as X;
             rewrite E in X; cbn in X;
             destruct X as [? X]; specialize (X _ eq_refl);
             clear E
         end.

(** C8: with a validated configuration and blocking calls that honour the
    deadline of their context, the time a run spends blocked, which is all
    the time that passes on its clock, is at most the connect timeout plus
    the RPC timeout: the dial runs under a deadline of the connect timeout
    and the health-check RPC under a deadline of the RPC timeout. *)
Theorem blocking_time_bounded
        (env : Env) (g0 : Globals) (t0 : Time) (args : Args) :
  valid (config g0 args) ->
  honours_deadlines env ->
  0 <= end_clock (process env g0 t0 args) - t0
    <= connTimeoutDur (config g0 args) + rpcTimeoutDur (config g0 args).
Proof.
  unfold valid.
  run_probe g0 args; intros [Hurl [Hct Hrt]] Hh;
    try contradiction; try lia.
  all: use_deadlines Hh; lia.
Qed.

Lemma blocking_time_bounded_witness :
  valid (config initial_globals addr_only) /\
  honours_deadlines (answering 1) /\
  0 <= end_clock (process (answering 1) initial_globals 0 addr_only) - 0
    <= time.Second + time.Second.
Proof.
  assert (Hv : valid (config initial_globals addr_only)).
  { unfold valid; cbn. split; [discriminate | split; reflexivity]. }
  split; [exact Hv |].
  split; [exact (answering_honours 1) |].
  exact (blocking_time_bounded (answering 1) initial_globals 0 addr_only
                               Hv (answering_honours 1)).
Defined.

(** ** The verbose flag *)

Lemma config_with_v g0 args v :
  config g0 (with_v args v) = set_verbose (config g0 args) (from_flag v false).
Proof. reflexivity. Qed.

(** C7: two runs that differ only in the [-v] flag, against the same
    environment, end with the same exit code and the same classification;
    they also make the same calls and take the same time. *)
Theorem verbose_changes_no_outcome
        (env : Env) (g0 : Globals) (t0 : Time) (args : Args)
        (v1 v2 : option bool) :
  exit_code (process env g0 t0 (with_v args v1))
  = exit_code (process env g0 t0 (with_v args v2)) /\
  (forall c, classified (process env g0 t0 (with_v args v1)) c
             = classified (process env g0 t0 (with_v args v2)) c) /\
  calls (process env g0 t0 (with_v args v1))
  = calls (process env g0 t0 (with_v args v2)) /\
  end_clock (process env g0 t0 (with_v args v1))
  = end_clock (process env g0 t0 (with_v args v2)).
Proof.
  unfold process, init, main, bind.
  rewrite ?flag_Parse_config, ?config_with_v.
  generalize (config g0 args), (from_flag v1 false), (from_flag v2 false).
  intros [ua url svc ct rt v] b1 b2.
  unfold set_verbose; unfold_ops; cbn; repeat branch.
  all: repeat split; try reflexivity;
    let c := fresh "c" in intros c; destruct c; reflexivity.
Qed.

(** ** The program refines the state machine *)

(** The program refines the state machine: a run that dialed is classified
    as the specification classifies the answers it got, exactly so, and
    exits with the code of that classification. *)
Lemma process_refines_Run_spec
      (env : Env) (g0 : Globals) (t0 : Time) (args : Args)
      (connect : grpc.ClientConn + error) :
  dial_result (events (process env g0 t0 args)) = Some connect ->
  exit_code (process env g0 t0 args)
  = ExitCode (Run_spec connect (rpc_answer (events (process env g0 t0 args)))) /\
  forall c, classified (process env g0 t0 args) c = true <->
            c = Run_spec connect (rpc_answer (events (process env g0 t0 args))).
Proof.
  unfold rpc_answer, Run_spec, carries.
  run_probe g0 args; intros Hdial; try discriminate Hdial;
    injection Hdial as <-; cbn.
  all: repeat match goal with
              | |- context [(?a =? ?b)%Z] => destruct (Z.eqb_spec a b)
              end; cbn; try congruence.
  all: split; [reflexivity |];
    let c := fresh "c" in
    intros c; destruct c; cbn; split; intros; try discriminate; reflexivity.
Qed.

(** A run that did not dial ended in [init]: exit code 1, no stage 2, no
    classification. *)
Lemma no_dial_no_classification
      (env : Env) (g0 : Globals) (t0 : Time) (args : Args) :
  dial_result (events (process env g0 t0 args)) = None ->
  exit_code (process env g0 t0 args) = StatusInvalidArguments /\
  forall c, classified (process env g0 t0 args) c = false.
Proof.
  run_probe g0 args; intros Hdial; try discriminate Hdial.
  all: split; [reflexivity |];
    let c := fresh "c" in intros c; destruct c; reflexivity.
Qed.

(** Two runs under the same configuration that got the same answers from
    the two stages have the same exit code and the same classification. *)
Lemma same_answers_same_outcome
      (env env' : Env) (g0 : Globals) (t0 t1 : Time) (args : Args) :
  dial_result (events (process env' g0 t1 args))
  = dial_result (events (process env g0 t0 args)) ->
  rpc_result (events (process env' g0 t1 args))
  = rpc_result (events (process env g0 t0 args)) ->
  exit_code (process env' g0 t1 args) = exit_code (process env g0 t0 args) /\
  forall c, classified (process env' g0 t1 args) c
            = classified (process env g0 t0 args) c.
Proof.
  intros Hdial Hrpc.
  destruct (dial_result (events (process env g0 t0 args))) as [connect |] eqn:E.
  - destruct (process_refines_Run_spec env' g0 t1 args connect Hdial) as [He' Hc'].
    destruct (process_refines_Run_spec env g0 t0 args connect E) as [He Hc].
    unfold rpc_answer in *. rewrite Hrpc in He', Hc'.
    split; [congruence |].
    intros c. apply Bool.eq_true_iff_eq. rewrite Hc', Hc. reflexivity.
  - destruct (no_dial_no_classification env' g0 t1 args Hdial) as [He' Hc'].
    destruct (no_dial_no_classification env g0 t0 args E) as [He Hc].
    split; [congruence |].
    intros c. rewrite Hc', Hc. reflexivity.
Qed.

(** ** A second invocation *)

Lemma end_globals_config env g0 t0 args :
  end_globals (process env g0 t0 args) = config g0 args.
Proof. run_probe g0 args; reflexivity. Qed.

Lemma config_idempotent g0 args :
  config (config g0 args) args = config g0 args.
Proof.
  unfold config; cbn.
  destruct (arg_connect_timeout args), (arg_rpc_timeout args); reflexivity.
Qed.

Lemma process_by_config env g0 g1 t args :
  config g1 args = config g0 args ->
  process env g1 t args = process env g0 t args.
Proof.
  intros H. unfold process, init, bind.
  rewrite !flag_Parse_config, H. reflexivity.
Qed.

(** C9: a second invocation with the same arguments, its package-level
    variables fresh or even left as the first invocation had them, that
    gets the same connect result and the same RPC response as the first,
    ends with the same exit code and the same classification. *)
Theorem rerun_same_outcome
        (env : Env) (g0 g1 : Globals) (t0 t1 : Time) (args : Args) :
  g1 = g0 \/ g1 = end_globals (process env g0 t0 args) ->
  dial_result (events (process env g1 t1 args))
  = dial_result (events (process env g0 t0 args)) ->
  rpc_result (events (process env g1 t1 args))
  = rpc_result (events (process env g0 t0 args)) ->
  exit_code (process env g1 t1 args) = exit_code (process env g0 t0 args) /\
  forall c, classified (process env g1 t1 args) c
            = classified (process env g0 t0 args) c.
Proof.
  intros Hg.
  assert (Hp : process env g1 t1 args = process env g0 t1 args).
  { apply process_by_config. destruct Hg as [-> | ->]; [reflexivity |].
    rewrite end_globals_config. apply config_idempotent. }
  rewrite Hp. apply same_answers_same_outcome.
Qed.

Lemma rerun_same_outcome_witness :
  dial_result
    (events (process (answering 2)
                     (end_globals (process (answering 2) initial_globals 0 addr_verbose))
                     7000000 addr_verbose))
  = dial_result (events (process (answering 2) initial_globals 0 addr_verbose)) /\
  rpc_result
    (events (process (answering 2)
                     (end_globals (process (answering 2) initial_globals 0 addr_verbose))
                     7000000 addr_verbose))
  = rpc_result (events (process (answering 2) initial_globals 0 addr_verbose)) /\
  exit_code (process (answering 2)
                     (end_globals (process (answering 2) initial_globals 0 addr_verbose))
                     7000000 addr_verbose)
  = exit_code (process (answering 2) initial_globals 0 addr_verbose).
Proof.
  split; [reflexivity |].
  split; [reflexivity |].
  exact (proj1 (rerun_same_outcome
                  (answering 2) initial_globals
                  (end_globals (process (answering 2) initial_globals 0 addr_verbose))
                  0 7000000 addr_verbose
                  (or_intror eq_refl) eq_refl eq_refl)).
Defined.

(** ** The exit code tells the stage *)

Ltac ex_and :=
  repeat match goal with
         | H : exists _, _ |- _ => destruct H
         | H : _ /\ _ |- _ => destruct H
         end.


(** ** Argument validation in [init] *)

(** X2: [init] reports the first check that fails, and nothing else: an
    empty address before the timeouts, the connect timeout before the RPC
    timeout, each timeout line with the offending value as its operand.
    This one line is the whole trace of the run, also with [-v]. *)
Theorem validation_reports_first_failure
        (env : Env) (g0 : Globals) (t0 : Time) (args : Args) :
  (remoteURL (config g0 args) = "" ->
   events (process env g0 t0 args)
   = [EvLog (Printf "error: --addr not specified" [])]) /\
  (remoteURL (config g0 args) <> "" ->
   connTimeoutDur (config g0 args) <= 0 ->
   events (process env g0 t0 args)
   = [EvLog (Printf "error: --connect-timeout must be greater than zero (specified: %v)"
                    [ADur (connTimeoutDur (config g0 args))])]) /\
  (remoteURL (config g0 args) <> "" ->
   0 < connTimeoutDur (config g0 args) ->
   rpcTimeoutDur (config g0 args) <= 0 ->
   events (process env g0 t0 args)
   = [EvLog (Printf "error: --rpc-timeout must be greater than zero (specified: %v)"
                    [ADur (rpcTimeoutDur (config g0 args))])]).
Proof.
  run_probe g0 args.
  all: repeat split; intros; try contradiction; try lia; reflexivity.
Qed.




(** ** One attempt per stage *)

(** X5: a run never retries.  It dials at most once and makes the
    health-check RPC at most once; it dials exactly when the configuration
    is valid, and makes the RPC exactly when the dial returned a
    connection. *)
Theorem single_attempt
        (env : Env) (g0 : Globals) (t0 : Time) (args : Args) :
  (dials (process env g0 t0 args) <= 1)%nat /\
  (checks (process env g0 t0 args) <= 1)%nat /\
  (dials (process env g0 t0 args) = 1%nat <-> valid (config g0 args)) /\
  (checks (process env g0 t0 args) = 1%nat <->
   exists conn, dial_result (events (process env g0 t0 args)) = Some (inl conn)).
Proof.
  unfold valid.
  run_probe g0 args.
  all: unfold dials, checks; cbn; repeat split; intros; ex_and;
    try discriminate; try lia; try contradiction; try assumption; eauto.
Qed.

(** ** The contexts of the two stages *)

(** X6: every dial of a run goes to the configured address, under a context
    whose deadline is the start of the run plus the connect timeout. *)
Theorem dial_under_connect_timeout
        (env : Env) (g0 : Globals) (t0 : Time) (args : Args)
        (ctx : context.Context) (target : string)
        (opts : list grpc.DialOption) (res : grpc.ClientConn + error) :
  In (EvDial ctx target opts res) (events (process env g0 t0 args)) ->
  target = remoteURL (config g0 args) /\
  context.deadline ctx = Some (t0 + connTimeoutDur (config g0 args)) /\
  res = fst (dial_call env (config g0 args) t0).
Proof.
  unfold dial_call.
  run_probe g0 args; intros Hin; split_in Hin.
  all: injection Hin as <- <- <- <-;
    repeat match goal with E : env_dial _ _ _ _ _ = _ |- _ => rewrite E end;
    repeat split.
Qed.

Lemma dial_under_connect_timeout_witness :
  In (EvDial (context.mk (Some 1000000000)) "localhost:50051"
             [grpc.WithUserAgent "grpc-health-probe"; grpc.WithBlock;
              grpc.WithInsecure]
             (inl ok_conn))
     (events (process (answering 1) initial_globals 0 addr_only)) /\
  context.deadline (context.mk (Some 1000000000))
  = Some (0 + connTimeoutDur (config initial_globals addr_only)).
Proof.
  assert (Hin : In (EvDial (context.mk (Some 1000000000)) "localhost:50051"
                           [grpc.WithUserAgent "grpc-health-probe";
                            grpc.WithBlock; grpc.WithInsecure]
                           (inl ok_conn))
                   (events (process (answering 1) initial_globals 0 addr_only))).
  { in_trace. }
  split; [exact Hin |].
  exact (proj1 (proj2 (dial_under_connect_timeout
                         (answering 1) initial_globals 0 addr_only _ _ _ _ Hin))).
Defined.

(** X7: every health-check RPC of a run is made on the connection the dial
    returned, asks for the configured service name, and runs under a
    deadline of the RPC timeout counted from the moment the dial returned:
    the time spent connecting is not taken off the RPC timeout. *)
Theorem check_on_dialed_connection
        (env : Env) (g0 : Globals) (t0 : Time) (args : Args)
        (ctx : context.Context) (conn : grpc.ClientConn)
        (req : healthpb.HealthCheckRequest)
        (resp : option healthpb.HealthCheckResponse) (err : option error) :
  In (EvCheck ctx conn req resp err) (events (process env g0 t0 args)) ->
  fst (dial_call env (config g0 args) t0) = inl conn /\
  req = healthpb.mkReq (serviceName (config g0 args)) /\
  context.deadline ctx
  = Some (t0 + snd (dial_call env (config g0 args) t0)
          + rpcTimeoutDur (config g0 args)).
Proof.
  unfold dial_call.
  run_probe g0 args; intros Hin; split_in Hin.
  all: injection Hin as <- <- <- <- <-;
    repeat match goal with E : env_dial _ _ _ _ _ = _ |- _ => rewrite E end;
    repeat split.
Qed.

Lemma check_on_dialed_connection_witness :
  In (EvCheck (context.mk (Some 1002000000)) ok_conn (healthpb.mkReq "")
              (Some (healthpb.mkResp 1)) None)
     (events (process (answering 1) initial_globals 0 addr_only)) /\
  fst (dial_call (answering 1) (config initial_globals addr_only) 0) = inl ok_conn.
Proof.
  assert (Hin : In (EvCheck (context.mk (Some 1002000000)) ok_conn
                            (healthpb.mkReq "") (Some (healthpb.mkResp 1)) None)
                   (events (process (answering 1) initial_globals 0 addr_only))).
  { in_trace. }
  split; [exact Hin |].
  exact (proj1 (check_on_dialed_connection
                  (answering 1) initial_globals 0 addr_only _ _ _ _ _ Hin)).
Defined.

(** ** Deferred calls *)


(** ** What a run logs *)



(** X10: the durations a verbose run reports are the times the two calls
    blocked: the connect duration is the time the dial took, the same value
    the "connection establisted" line shows, and connect and RPC duration
    add up to all the time that passed on the clock.  The line is logged
    only by a run that ends with exit code 0. *)
Theorem verbose_reports_blocking_times
        (env : Env) (g0 : Globals) (t0 : Time) (args : Args)
        (c r : Duration) :
  In (EvLog (Printf "time elapsed: connect=%v rpc=%v" [ADur c; ADur r]))
     (events (process env g0 t0 args)) ->
  c = snd (dial_call env (config g0 args) t0) /\
  c + r = end_clock (process env g0 t0 args) - t0 /\
  In (EvLog (Printf "connection establisted (took %v)" [ADur c]))
     (events (process env g0 t0 args)) /\
  exit_code (process env g0 t0 args) = 0.
Proof.
  unfold dial_call.
  run_probe g0 args; intros Hin; split_in Hin.
  all: injection Hin as <- <-;
    repeat match goal with E : env_dial _ _ _ _ _ = _ |- _ => rewrite E end;
    cbn; repeat split; try lia; in_trace.
Qed.

Lemma verbose_reports_blocking_times_witness :
  In (EvLog (Printf "time elapsed: connect=%v rpc=%v" [ADur 2000000; ADur 3000000]))
     (events (process (answering 1) initial_globals 0 addr_verbose)) /\
  2000000 + 3000000
  = end_clock (process (answering 1) initial_globals 0 addr_verbose) - 0.
Proof.
  assert (Hin : In (EvLog (Printf "time elapsed: connect=%v rpc=%v"
                                  [ADur 2000000; ADur 3000000]))
                   (events (process (answering 1) initial_globals 0 addr_verbose))).
  { in_trace. }
  split; [exact Hin |].
  exact (proj1 (proj2 (verbose_reports_blocking_times
                         (answering 1) initial_globals 0 addr_verbose _ _ Hin))).
Defined.


(** X12: the line a failed stage logs names its cause.  After a dial error
    it shows the configured address, with the connect timeout when the error
    is [context.DeadlineExceeded] and with the error otherwise; after an RPC
    error it shows the RPC timeout when the error carries code
    DeadlineExceeded, the error itself when it carries neither that code nor
    Unimplemented. *)
Theorem failure_lines_carry_cause
        (env : Env) (g0 : Globals) (t0 : Time) (args : Args) :
  (forall e,
      dial_result (events (process env g0 t0 args)) = Some (inr e) ->
      In (EvLog (if is_context_DeadlineExceeded e
                 then Printf "timeout: failed to connect service %q within %v"
                             [AStr (remoteURL (config g0 args));
                              ADur (connTimeoutDur (config g0 args))]
                 else Printf "error: failed to connect service at %q: %+v"
                             [AStr (remoteURL (config g0 args)); AErr e]))
         (events (process env g0 t0 args))) /\
  (forall resp e,
      rpc_result (events (process env g0 t0 args)) = Some (resp, Some e) ->
      In (EvLog (if carries e codes.Unimplemented
                 then Printf "error: this server does not implement the grpc health protocol (grpc.health.v1.Health)" []
                 else if carries e codes.DeadlineExceeded
                      then Printf "timeout: health rpc did not complete within %v"
                                  [ADur (rpcTimeoutDur (config g0 args))]
                      else Printf "error: health rpc failed: %+v" [AErr e]))
         (events (process env g0 t0 args))).
Proof.
  unfold carries.
  run_probe g0 args.
  all: split; [intros e' Hd | intros resp' e' Hr];
    try discriminate; try injection Hd as <-; try injection Hr as <- <-;
    cbn; subst;
    repeat match goal with
           | |- context [(?a =? ?b)%Z] => destruct (Z.eqb_spec a b)
           end;
    try contradiction; try congruence; in_trace.
Qed.
